(** * DDCSupport.h: the declaration surface of the DDC support module

    [Sources/DDCSupport/include/DDCSupport.h] has no executable code: it is
    a list of preprocessor directives, one [typedef] and thirteen function
    prototypes over private macOS frameworks.  The embedding below is that
    list, item by item and in source order, together with the few notions
    of C that the statements about it need (linkage, typedef expansion,
    the channels through which a call reports back). *)

From Stdlib Require Import String List Bool.
Import ListNotations.
Open Scope string_scope.
Open Scope list_scope.

Module DDCSupport.

(** ** Syntax of the header *)

(** A type as it is spelled in a declaration.  [Tnamed] is a typedef name,
    either one of the platform's (from the included framework headers) or
    the header's own [IOAVService].  [Tptr c t] is [t*], or [const t*] when
    [c] is [true]. *)
Inductive ctype : Type :=
| Tvoid
| Tbool
| Tint
| Tfloat
| Tuint32
| Tnamed (n : string)
| Tptr (const_pointee : bool) (pointee : ctype).

Inductive directive : Type :=
| PragmaOnce
| Include (path : string).

Inductive storage_class : Type :=
| Extern
| Static.

Inductive attribute : Type :=
| weak_import.

(** A parameter: its type and, when the prototype gives one, its name. *)
Record param : Type := Param {
  p_type : ctype;
  p_name : option string
}.

Record prototype : Type := Prototype {
  f_storage : option storage_class;
  f_ret : ctype;
  f_name : string;
  f_params : list param;
  f_attrs : list attribute
}.

(** Statements, for function bodies.  The header has none; the grammar is
    here so that "no body" and "no control flow" say something. *)
Inductive stmt : Type :=
| Sskip
| Sexpr (e : string)
| Sreturn (e : option string)
| Sseq (s1 s2 : stmt)
| Sif (cond : string) (then_ else_ : stmt)
| Sloop (cond : string) (body : stmt).

(** A top-level item of a C header. *)
Inductive item : Type :=
| Directive (d : directive)
| Typedef (aliased : ctype) (alias : string)
| FunDecl (p : prototype)
| FunDef (p : prototype) (body : stmt)
| VarDef (t : ctype) (name : string) (init : option string).

(** ** The platform's type names used by the header *)

Definition CFTypeRef : ctype := Tnamed "CFTypeRef".
Definition CFAllocatorRef : ctype := Tnamed "CFAllocatorRef".
Definition CFDictionaryRef : ctype := Tnamed "CFDictionaryRef".
Definition CFUUIDRef : ctype := Tnamed "CFUUIDRef".
Definition CGDirectDisplayID : ctype := Tnamed "CGDirectDisplayID".
Definition IOReturn : ctype := Tnamed "IOReturn".
Definition io_service_t : ctype := Tnamed "io_service_t".

(** The header's own type name. *)
Definition IOAVService : ctype := Tnamed "IOAVService".

Definition named (t : ctype) (n : string) : param := Param t (Some n).
Definition unnamed (t : ctype) : param := Param t None.

(** ** The thirteen prototypes, as declared *)

Definition IOAVServiceCreate : prototype :=
  Prototype (Some Extern) IOAVService "IOAVServiceCreate"
    [named CFAllocatorRef "allocator"] [].

Definition IOAVServiceCreateWithService : prototype :=
  Prototype (Some Extern) IOAVService "IOAVServiceCreateWithService"
    [named CFAllocatorRef "allocator"; named io_service_t "service"] [].

Definition IOAVServiceReadI2C : prototype :=
  Prototype (Some Extern) IOReturn "IOAVServiceReadI2C"
    [named IOAVService "service";
     named Tuint32 "chipAddress";
     named Tuint32 "offset";
     named (Tptr false Tvoid) "outputBuffer";
     named Tuint32 "outputBufferSize"] [].

Definition IOAVServiceWriteI2C : prototype :=
  Prototype (Some Extern) IOReturn "IOAVServiceWriteI2C"
    [named IOAVService "service";
     named Tuint32 "chipAddress";
     named Tuint32 "dataAddress";
     named (Tptr false Tvoid) "inputBuffer";
     named Tuint32 "inputBufferSize"] [].

Definition CoreDisplay_DisplayCreateInfoDictionary : prototype :=
  Prototype (Some Extern) CFDictionaryRef
    "CoreDisplay_DisplayCreateInfoDictionary"
    [unnamed CGDirectDisplayID] [].

Definition CGDisplayCreateUUIDFromDisplayID : prototype :=
  Prototype (Some Extern) CFUUIDRef "CGDisplayCreateUUIDFromDisplayID"
    [named CGDirectDisplayID "display"] [].

Definition DisplayServicesGetBrightness : prototype :=
  Prototype (Some Extern) Tint "DisplayServicesGetBrightness"
    [named CGDirectDisplayID "display";
     named (Tptr false Tfloat) "brightness"] [].

Definition DisplayServicesSetBrightness : prototype :=
  Prototype (Some Extern) Tint "DisplayServicesSetBrightness"
    [named CGDirectDisplayID "display"; named Tfloat "brightness"] [].

Definition DisplayServicesGetLinearBrightness : prototype :=
  Prototype (Some Extern) Tint "DisplayServicesGetLinearBrightness"
    [named CGDirectDisplayID "display";
     named (Tptr false Tfloat) "brightness"] [].

Definition DisplayServicesSetLinearBrightness : prototype :=
  Prototype (Some Extern) Tint "DisplayServicesSetLinearBrightness"
    [named CGDirectDisplayID "display"; named Tfloat "brightness"] [].

Definition CGSServiceForDisplayNumber : prototype :=
  Prototype (Some Extern) Tvoid "CGSServiceForDisplayNumber"
    [named CGDirectDisplayID "display";
     named (Tptr false io_service_t) "service"] [].

Definition CGSIsHDREnabled : prototype :=
  Prototype None Tbool "CGSIsHDREnabled"
    [named CGDirectDisplayID "display"] [weak_import].

Definition CGSIsHDRSupported : prototype :=
  Prototype None Tbool "CGSIsHDRSupported"
    [named CGDirectDisplayID "display"] [weak_import].

(** ** The header, in source order *)

Definition header : list item :=
  [ Directive PragmaOnce;
    Directive (Include "Foundation/Foundation.h");
    Directive (Include "IOKit/i2c/IOI2CInterface.h");
    Directive (Include "CoreGraphics/CoreGraphics.h");
    Typedef CFTypeRef "IOAVService";
    FunDecl IOAVServiceCreate;
    FunDecl IOAVServiceCreateWithService;
    FunDecl IOAVServiceReadI2C;
    FunDecl IOAVServiceWriteI2C;
    FunDecl CoreDisplay_DisplayCreateInfoDictionary;
    FunDecl CGDisplayCreateUUIDFromDisplayID;
    FunDecl DisplayServicesGetBrightness;
    FunDecl DisplayServicesSetBrightness;
    FunDecl DisplayServicesGetLinearBrightness;
    FunDecl DisplayServicesSetLinearBrightness;
    FunDecl CGSServiceForDisplayNumber;
    FunDecl CGSIsHDREnabled;
    FunDecl CGSIsHDRSupported ].

(** ** Reading a header *)

(** The functions a header declares, in order. *)
Definition declared_functions (h : list item) : list prototype :=
  flat_map (fun i => match i with
                     | FunDecl p | FunDef p _ => [p]
                     | _ => []
                     end) h.

(** The typedefs of a header, in order: alias and aliased type. *)
Definition typedefs (h : list item) : list (string * ctype) :=
  flat_map (fun i => match i with
                     | Typedef t a => [(a, t)]
                     | _ => []
                     end) h.

Definition is_directive (i : item) : bool :=
  match i with Directive _ => true | _ => false end.

(** What is left of a header once the preprocessor lines are taken out:
    its declarations. *)
Definition declarations (h : list item) : list item :=
  filter (fun i => negb (is_directive i)) h.

Definition has_body (i : item) : bool :=
  match i with FunDef _ _ => true | _ => false end.

Definition owns_data (i : item) : bool :=
  match i with VarDef _ _ _ => true | _ => false end.

Fixpoint branches (s : stmt) : bool :=
  match s with
  | Sskip | Sexpr _ | Sreturn _ => false
  | Sseq s1 s2 => branches s1 || branches s2
  | Sif _ _ _ | Sloop _ _ => true
  end.

Definition has_control_flow (i : item) : bool :=
  match i with FunDef _ b => branches b | _ => false end.

(** Linkage of a declared function (C11 6.2.2): internal only under
    [static]; a prototype without a storage class is as if [extern]. *)
Inductive linkage : Type := External | Internal.

Definition linkage_of (p : prototype) : linkage :=
  match f_storage p with
  | Some Static => Internal
  | Some Extern | None => External
  end.

Definition weak_imported (p : prototype) : bool :=
  existsb (fun a => match a with weak_import => true end) (f_attrs p).

Definition param_types (p : prototype) : list ctype :=
  map p_type (f_params p).

Definition param_names (p : prototype) : list (option string) :=
  map p_name (f_params p).

Fixpoint ctype_eqb (t u : ctype) : bool :=
  match t, u with
  | Tvoid, Tvoid | Tbool, Tbool | Tint, Tint
  | Tfloat, Tfloat | Tuint32, Tuint32 => true
  | Tnamed n, Tnamed m => String.eqb n m
  | Tptr c t', Tptr d u' => Bool.eqb c d && ctype_eqb t' u'
  | _, _ => false
  end.

Definition name_contains (needle : string) (p : prototype) : bool :=
  match String.index 0 needle (f_name p) with
  | Some _ => true
  | None => false
  end.

Definition returns (t : ctype) (p : prototype) : bool :=
  ctype_eqb (f_ret p) t.

(** ** Typedef expansion *)

(** [subst n u t]: the type [t] with the typedef name [n] replaced by the
    type [u] it stands for. *)
Fixpoint subst (n : string) (u : ctype) (t : ctype) : ctype :=
  match t with
  | Tnamed m => if String.eqb m n then u else t
  | Tptr c t' => Tptr c (subst n u t')
  | _ => t
  end.

(** Whether the typedef name [n] occurs in [t]. *)
Fixpoint mentions (n : string) (t : ctype) : bool :=
  match t with
  | Tnamed m => String.eqb m n
  | Tptr _ t' => mentions n t'
  | _ => false
  end.

(** Expansion under a list of typedefs given latest first: a typedef can
    only mention names declared before it. *)
Fixpoint expand (tds : list (string * ctype)) (t : ctype) : ctype :=
  match tds with
  | [] => t
  | (n, u) :: earlier => expand earlier (subst n u t)
  end.

(** The type [t] denotes in header [h]: every typedef of [h] is expanded;
    the platform's names stay as they are. *)
Definition resolve (h : list item) (t : ctype) : ctype :=
  expand (rev (typedefs h)) t.

(** ** Looking a symbol up *)

(** The prototype a header declares under a given symbol name. *)
Definition lookup (name : string) (h : list item) : option prototype :=
  find (fun p => String.eqb (f_name p) name) (declared_functions h).

(** ** What a call reports back *)

(** The return types the interface uses for status codes: [IOReturn] on
    the IOKit side, plain [int] on the DisplayServices side. *)
Definition is_status_type (t : ctype) : bool :=
  ctype_eqb t IOReturn || ctype_eqb t Tint.

(** A pointer through which the callee may write: the pointee is not
    [const]. *)
Definition writable (t : ctype) : bool :=
  match t with
  | Tptr false _ => true
  | _ => false
  end.

(** The ways a declared function can tell its caller something. *)
Inductive channel : Type :=
| Presence                             (* weak import: the symbol may be missing *)
| Status (t : ctype)                   (* a returned status code *)
| Result (t : ctype)                   (* a returned value that is no status code *)
| OutParam (i : nat) (pointee : ctype). (* memory behind the [i]-th parameter *)

Definition return_channel (p : prototype) : list channel :=
  match f_ret p with
  | Tvoid => []
  | t => if is_status_type t then [Status t] else [Result t]
  end.

Fixpoint out_channels (i : nat) (ts : list ctype) : list channel :=
  match ts with
  | [] => []
  | Tptr false t :: ts' => OutParam i t :: out_channels (S i) ts'
  | _ :: ts' => out_channels (S i) ts'
  end.

Definition channels (p : prototype) : list channel :=
  (if weak_imported p then [Presence] else [])
  ++ return_channel p
  ++ out_channels 0 (param_types p).

(** *** Calling a weak-imported boolean query *)

(** What the caller of a function whose channels are [Presence] and a
    [bool] result can see of one call. *)
Inductive observation : Type :=
| SymbolAbsent
| Returned (b : bool).

(** What the platform arrives at inside such a query, behind the
    interface: an answer, or a failure of some kind. *)
Inductive outcome : Type :=
| Answer (b : bool)
| Failure (code : nat).

Section Call.

(** The platform's display identifiers. *)
Variable display : Type.

(** One call.  [impl] is the function the loader bound to the symbol, if
    it found one; the prototype makes it deliver a [bool] and nothing
    else. *)
Definition call (impl : option (display -> bool)) (d : display)
  : observation :=
  match impl with
  | None => SymbolAbsent
  | Some f => Returned (f d)
  end.

(** An implementation that arrives at an [outcome] has to pass it through
    the [bool] return value. *)
Definition through (report : outcome -> bool) (query : display -> outcome)
  : option (display -> bool) :=
  Some (fun d => report (query d)).

End Call.

Arguments call {display} impl d.
Arguments through {display} report query.

(** ** The groups of entry points *)

Inductive group : Type :=
| ServiceCreator
| I2CTransfer
| DisplayInfo
| DisplayUUID
| Brightness
| ServiceResolution
| HDRQuery.

Definition group_eqb (g g' : group) : bool :=
  match g, g' with
  | ServiceCreator, ServiceCreator | I2CTransfer, I2CTransfer
  | DisplayInfo, DisplayInfo | DisplayUUID, DisplayUUID
  | Brightness, Brightness | ServiceResolution, ServiceResolution
  | HDRQuery, HDRQuery => true
  | _, _ => false
  end.

(** The group test of each group, read off the prototype alone. *)
Definition in_group (g : group) (p : prototype) : bool :=
  match g with
  | ServiceCreator => returns IOAVService p
  | I2CTransfer => name_contains "I2C" p
  | DisplayInfo => returns CFDictionaryRef p
  | DisplayUUID => returns CFUUIDRef p
  | Brightness => name_contains "Brightness" p
  | ServiceResolution => returns Tvoid p
  | HDRQuery => name_contains "HDR" p
  end.

Definition groups : list group :=
  [ServiceCreator; I2CTransfer; DisplayInfo; DisplayUUID;
   Brightness; ServiceResolution; HDRQuery].

Definition members (g : group) (h : list item) : list prototype :=
  filter (in_group g) (declared_functions h).

(** The groups a prototype falls in. *)
Definition groups_of (p : prototype) : list group :=
  filter (fun g => in_group g p) groups.

(** ** Brightness functions *)

Definition is_getter (p : prototype) : bool := name_contains "Get" p.
Definition is_linear (p : prototype) : bool := name_contains "Linear" p.

(** The brightness parameter of a brightness function: a pointer to
    [float] for a getter, a [float] for a setter. *)
Definition brightness_param (p : prototype) : ctype :=
  if is_getter p then Tptr false Tfloat else Tfloat.

(** ** Passing a value where a type is expected *)

Section Acceptance.

(** The platform compiler's rule for passing a value of one type where
    another is expected, on types with no typedef of this header left in
    them.  What the rule is does not matter below. *)
Variable accepted : ctype -> ctype -> Prop.

(** A value of type [actual] is accepted where [expected] is declared, in
    header [h]: typedefs are expanded first, since a typedef introduces
    no new type (C11 6.7.8). *)
Definition accepts (h : list item) (expected actual : ctype) : Prop :=
  accepted (resolve h expected) (resolve h actual).

End Acceptance.

(** ** How the declarations fit together *)

(** Whether [p] has a parameter whose type denotes, in header [h], the
    type that [t] denotes. *)
Definition takes (h : list item) (t : ctype) (p : prototype) : bool :=
  existsb (fun u => ctype_eqb (resolve h u) (resolve h t)) (param_types p).

(** How many parameters of [p] are spelled with the type [t]. *)
Definition occurrences (t : ctype) (p : prototype) : nat :=
  length (filter (ctype_eqb t) (param_types p)).


(** The memory the callee may write, parameter by parameter. *)
Definition out_params (p : prototype) : list channel :=
  out_channels 0 (param_types p).

(** [replace old new s]: [s] with the first occurrence of [old] replaced
    by [new]; [s] itself when [old] does not occur. *)
Fixpoint replace (old new s : string) : string :=
  match s with
  | EmptyString => EmptyString
  | String c s' =>
      if String.prefix old s
      then String.append new
             (String.substring (String.length old)
                (String.length s - String.length old) s)
      else String c (replace old new s')
  end.

(** The name of the function that does the opposite of a brightness
    function: the setter of a getter, the getter of a setter. *)
Definition counterpart_name (p : prototype) : string :=
  if is_getter p
  then replace "Get" "Set" (f_name p)
  else replace "Set" "Get" (f_name p).

(** * Properties *)

(** ** General facts *)

Lemma ctype_eqb_refl (t : ctype) : ctype_eqb t t = true.
Proof.
  induction t as [ | | | | | n | c t IH]; simpl; trivial.
  - apply String.eqb_refl.
  - rewrite IH, Bool.eqb_reflx. reflexivity.
Qed.

Lemma ctype_eqb_eq (t u : ctype) : ctype_eqb t u = true <-> t = u.
Proof.
  split.
  - revert u.
    induction t as [ | | | | | n | c t IH]; intros [ | | | | | m | d u];
      simpl; intro H; try discriminate; trivial.
    + apply String.eqb_eq in H. now subst.
    + apply andb_prop in H as [Hc Ht].
      apply Bool.eqb_prop in Hc. apply IH in Ht. now subst.
  - intros <-. apply ctype_eqb_refl.
Qed.

Lemma declared_functions_app (h1 h2 : list item) :
  declared_functions (h1 ++ h2) = declared_functions h1 ++ declared_functions h2.
Proof. unfold declared_functions. apply flat_map_app. Qed.

Lemma In_declared_functions (h : list item) (p : prototype) :
  In p (declared_functions h) <-> In (FunDecl p) h \/ exists b, In (FunDef p b) h.
Proof.
  unfold declared_functions. rewrite in_flat_map. split.
  - intros [i [Hi Hp]].
    destruct i as [d | t a | q | q b | t n v]; simpl in Hp;
      try contradiction; destruct Hp as [-> | []]; eauto.
  - intros [H | [b H]]; eexists; (split; [exact H | simpl; auto]).
Qed.

(** Looking a name up finds a declared function that carries this name. *)
Lemma lookup_sound (h : list item) (name : string) (p : prototype) :
  lookup name h = Some p -> In p (declared_functions h) /\ f_name p = name.
Proof.
  unfold lookup. intro H. apply find_some in H as [Hin Hname].
  split; [exact Hin | now apply String.eqb_eq].
Qed.

(** A substitution for a name that does not occur changes nothing. *)
Lemma subst_absent (n : string) (u t : ctype) :
  mentions n t = false -> subst n u t = t.
Proof.
  induction t as [ | | | | | m | c t IH]; simpl; intro H; trivial.
  - now rewrite H.
  - now rewrite IH.
Qed.

Lemma expand_ptr (tds : list (string * ctype)) (c : bool) (t : ctype) :
  expand tds (Tptr c t) = Tptr c (expand tds t).
Proof.
  revert t. induction tds as [ | [n u] tds IH]; intro t; simpl; trivial.
Qed.

(** Where no name is declared twice, looking up the name of a declared
    function finds that very declaration. *)
Lemma find_by_name (ps : list prototype) (p : prototype) :
  NoDup (map f_name ps) -> In p ps ->
  find (fun q => String.eqb (f_name q) (f_name p)) ps = Some p.
Proof.
  induction ps as [ | q ps IH]; simpl; intros Hnd Hin; [contradiction | ].
  inversion Hnd as [ | n ns Hq Hps]; subst.
  destruct Hin as [-> | Hin].
  - now rewrite String.eqb_refl.
  - destruct (String.eqb_spec (f_name q) (f_name p)) as [E | _].
    + exfalso. apply Hq. rewrite E. now apply in_map.
    + now apply IH.
Qed.

(** The header declares no symbol twice. *)
Lemma header_names_distinct :
  NoDup (map f_name (declared_functions header)).
Proof.
  simpl. repeat constructor; simpl; intuition discriminate.
Qed.

(** X1: looking up the name of a function the header declares finds that
    very declaration: no symbol is declared twice, so none hides
    another. *)
Lemma lookup_complete (p : prototype) :
  In p (declared_functions header) -> lookup (f_name p) header = Some p.
Proof.
  intro H. unfold lookup.
  apply find_by_name; [exact header_names_distinct | exact H].
Qed.

(** Case analysis over the functions of the header: one goal per
    prototype. *)
Ltac each_function H :=
  simpl in H;
  repeat (destruct H as [<- | H]);
  [ .. | contradiction ].

Ltac in_header :=
  solve [ simpl; repeat (first [ left; reflexivity | right ]) ].

(** ** Weak import *)

(** C1: exactly two declared functions are weak-imported, the HDR queries
    [CGSIsHDREnabled] and [CGSIsHDRSupported]; each of them takes one
    display identifier and returns a boolean; no other declared function
    carries the attribute. *)
Theorem weak_import_exactly_hdr_queries (p : prototype) :
  In p (declared_functions header) ->
  length (filter weak_imported (declared_functions header)) = 2
  /\ (weak_imported p = true <->
      f_name p = "CGSIsHDREnabled" \/ f_name p = "CGSIsHDRSupported")
  /\ (weak_imported p = true ->
      param_types p = [CGDirectDisplayID] /\ f_ret p = Tbool).
Proof.
  intro H. split; [reflexivity | ].
  each_function H; cbn; (split; [split | ]);
    try (intros [E | E]; discriminate E);
    try discriminate; auto.
Qed.

Lemma weak_import_exactly_hdr_queries_witness :
  In CGSIsHDRSupported (declared_functions header)
  /\ length (filter weak_imported (declared_functions header)) = 2
  /\ (weak_imported CGSIsHDRSupported = true <->
      f_name CGSIsHDRSupported = "CGSIsHDREnabled"
      \/ f_name CGSIsHDRSupported = "CGSIsHDRSupported")
  /\ (weak_imported CGSIsHDRSupported = true ->
      param_types CGSIsHDRSupported = [CGDirectDisplayID]
      /\ f_ret CGSIsHDRSupported = Tbool).
Proof.
  split.
  - in_header.
  - apply (weak_import_exactly_hdr_queries CGSIsHDRSupported). in_header.
Defined.

(** ** The I2C transfer functions *)

(** C3: the header has two I2C transfer functions and both return the
    platform status code [IOReturn].  [IOAVServiceReadI2C] takes a service
    handle, a chip address, an offset, an output buffer pointer (through
    which the callee may write) and an output buffer size;
    [IOAVServiceWriteI2C] takes a service handle, a chip address, a data
    address, an input buffer pointer and an input buffer size. *)
Theorem i2c_transfer_signatures :
  map f_name (members I2CTransfer header)
    = ["IOAVServiceReadI2C"; "IOAVServiceWriteI2C"]
  /\ Forall (fun p => f_ret p = IOReturn /\ is_status_type (f_ret p) = true)
            (members I2CTransfer header)
  /\ (exists rd, lookup "IOAVServiceReadI2C" header = Some rd
        /\ param_types rd
           = [IOAVService; Tuint32; Tuint32; Tptr false Tvoid; Tuint32]
        /\ param_names rd
           = [Some "service"; Some "chipAddress"; Some "offset";
              Some "outputBuffer"; Some "outputBufferSize"]
        /\ out_channels 0 (param_types rd) = [OutParam 3 Tvoid])
  /\ (exists wr, lookup "IOAVServiceWriteI2C" header = Some wr
        /\ param_types wr
           = [IOAVService; Tuint32; Tuint32; Tptr false Tvoid; Tuint32]
        /\ param_names wr
           = [Some "service"; Some "chipAddress"; Some "dataAddress";
              Some "inputBuffer"; Some "inputBufferSize"]).
Proof.
  split; [reflexivity | ].
  split; [repeat constructor | ].
  split; eexists; (split; [reflexivity | ]); repeat split.
Qed.

(** ** Brightness *)

(** C4: exactly four brightness functions are declared, one for each of
    get and set in each of the perceptual and the linear representation;
    each takes a display identifier and a [float] brightness (by pointer
    for a getter, by value for a setter) and returns an [int] status
    code. *)
Theorem brightness_functions :
  length (members Brightness header) = 4
  /\ map (fun p => (is_getter p, is_linear p)) (members Brightness header)
     = [(true, false); (false, false); (true, true); (false, true)]
  /\ forall p, In p (members Brightness header) ->
       param_types p = [CGDirectDisplayID; brightness_param p]
       /\ f_ret p = Tint
       /\ is_status_type (f_ret p) = true
       /\ is_getter p = negb (name_contains "Set" p).
Proof.
  split; [reflexivity | ].
  split; [reflexivity | ].
  intros p H. each_function H; repeat split.
Qed.

(** ** Service handles *)

(** C5: exactly two declared functions return the service-handle type
    [IOAVService], and they are the two creation functions:
    [IOAVServiceCreate] takes an allocator only,
    [IOAVServiceCreateWithService] an allocator and the underlying service
    reference. *)
Theorem service_creators :
  map f_name (members ServiceCreator header)
    = ["IOAVServiceCreate"; "IOAVServiceCreateWithService"]
  /\ (forall p, In p (declared_functions header) ->
        (f_ret p = IOAVService <-> In p (members ServiceCreator header)))
  /\ (exists c, lookup "IOAVServiceCreate" header = Some c
        /\ f_ret c = IOAVService
        /\ param_types c = [CFAllocatorRef])
  /\ (exists c, lookup "IOAVServiceCreateWithService" header = Some c
        /\ f_ret c = IOAVService
        /\ param_types c = [CFAllocatorRef; io_service_t]).
Proof.
  split; [reflexivity | ].
  split.
  - intros p Hp. unfold members. rewrite filter_In.
    unfold in_group, returns. rewrite ctype_eqb_eq. tauto.
  - split; eexists; (split; [reflexivity | ]); split; reflexivity.
Qed.

(** C6: [CGSServiceForDisplayNumber] takes a display identifier and a
    pointer to a service reference and returns [void]: it has no status
    code, and its only channel back to the caller is the memory behind its
    second parameter. *)
Theorem service_resolution_out_param :
  exists f, lookup "CGSServiceForDisplayNumber" header = Some f
    /\ f_ret f = Tvoid
    /\ param_types f = [CGDirectDisplayID; Tptr false io_service_t]
    /\ return_channel f = []
    /\ channels f = [OutParam 1 io_service_t].
Proof.
  eexists. split; [reflexivity | ]. repeat split.
Qed.

(** ** Display information and UUID *)

(** C7: [CoreDisplay_DisplayCreateInfoDictionary] is declared to return a
    dictionary reference and [CGDisplayCreateUUIDFromDisplayID] a UUID
    reference; each takes exactly one argument, the display identifier. *)
Theorem display_info_and_uuid :
  (exists f, lookup "CoreDisplay_DisplayCreateInfoDictionary" header = Some f
     /\ f_ret f = CFDictionaryRef
     /\ length (f_params f) = 1
     /\ param_types f = [CGDirectDisplayID])
  /\ (exists f, lookup "CGDisplayCreateUUIDFromDisplayID" header = Some f
     /\ f_ret f = CFUUIDRef
     /\ length (f_params f) = 1
     /\ param_types f = [CGDirectDisplayID]).
Proof.
  split; eexists; (split; [reflexivity | ]); repeat split.
Qed.

(** ** Buffers of the I2C functions *)

(** C10: each I2C transfer function takes its buffer as a [void*] whose
    pointee is not [const] (on the write side too), followed by a separate
    [uint32_t] size; the prototype carries no attribute, so nothing
    declared ties the size to the buffer. *)
Theorem i2c_buffer_untyped_unrelated (p : prototype) :
  In p (members I2CTransfer header) ->
  nth_error (param_types p) 3 = Some (Tptr false Tvoid)
  /\ nth_error (param_types p) 4 = Some Tuint32
  /\ length (f_params p) = 5
  /\ f_attrs p = []
  /\ filter writable (param_types p) = [Tptr false Tvoid].
Proof.
  intro H. each_function H; repeat split.
Qed.

Lemma i2c_buffer_untyped_unrelated_witness :
  In IOAVServiceWriteI2C (members I2CTransfer header)
  /\ nth_error (param_types IOAVServiceWriteI2C) 3 = Some (Tptr false Tvoid)
  /\ nth_error (param_types IOAVServiceWriteI2C) 4 = Some Tuint32
  /\ length (f_params IOAVServiceWriteI2C) = 5
  /\ f_attrs IOAVServiceWriteI2C = []
  /\ filter writable (param_types IOAVServiceWriteI2C) = [Tptr false Tvoid].
Proof.
  split.
  - in_header.
  - apply (i2c_buffer_untyped_unrelated IOAVServiceWriteI2C). in_header.
Defined.

(** ** The header as a whole *)

(** C2: no item of the header has a body, control flow or data of its
    own.  Its preprocessor lines ([#pragma once] and three [#include]s of
    platform headers) aside, the header is one type alias followed by
    thirteen function prototypes, all of external linkage, and nothing
    else: two service-handle creators, two I2C transfer functions, one
    display-info function, one UUID function, four brightness functions,
    one service-resolution function and two HDR queries, every prototype
    in exactly one of these groups. *)
Theorem header_is_declarations_only :
  Forall (fun i => has_body i = false
                   /\ has_control_flow i = false
                   /\ owns_data i = false) header
  /\ declarations header
     = Typedef CFTypeRef "IOAVService"
       :: map FunDecl (declared_functions header)
  /\ length (declared_functions header) = 13
  /\ Forall (fun p => linkage_of p = External) (declared_functions header)
  /\ map (fun g => length (members g header)) groups = [2; 2; 1; 1; 4; 1; 2]
  /\ Forall (fun p => length (groups_of p) = 1) (declared_functions header)
  /\ filter is_directive header
     = [ Directive PragmaOnce;
         Directive (Include "Foundation/Foundation.h");
         Directive (Include "IOKit/i2c/IOI2CInterface.h");
         Directive (Include "CoreGraphics/CoreGraphics.h") ].
Proof.
  split; [repeat constructor | ].
  split; [reflexivity | ].
  split; [reflexivity | ].
  split; [repeat constructor | ].
  split; [reflexivity | ].
  split; [repeat constructor | reflexivity].
Qed.

(** ** The service-handle type *)

Lemma resolve_IOAVService : resolve header IOAVService = CFTypeRef.
Proof. reflexivity. Qed.

(** Types that do not mention [IOAVService] are left alone by the
    header's typedef. *)
Lemma resolve_other (t : ctype) :
  mentions "IOAVService" t = false -> resolve header t = t.
Proof. intro H. unfold resolve. simpl. now apply subst_absent. Qed.

(** C8: [IOAVService] is a plain alias of [CFTypeRef]: the header's only
    typedef, and both names denote the same type.  So, whatever the
    compiler's rule for passing values is, a value accepted where a
    [CFTypeRef] is expected is accepted where a service handle is
    expected. *)
Theorem service_handle_is_cftyperef
  (accepted : ctype -> ctype -> Prop) (t : ctype) :
  accepts accepted header CFTypeRef t ->
  typedefs header = [("IOAVService", CFTypeRef)]
  /\ resolve header IOAVService = resolve header CFTypeRef
  /\ accepts accepted header IOAVService t.
Proof.
  intro H. split; [reflexivity | ].
  assert (E : resolve header IOAVService = resolve header CFTypeRef).
  { rewrite resolve_IOAVService. symmetry. now apply resolve_other. }
  split; [exact E | ].
  unfold accepts in *. now rewrite E.
Qed.

Lemma service_handle_is_cftyperef_witness :
  accepts eq header CFTypeRef IOAVService
  /\ typedefs header = [("IOAVService", CFTypeRef)]
  /\ resolve header IOAVService = resolve header CFTypeRef
  /\ accepts eq header IOAVService IOAVService.
Proof.
  split.
  - reflexivity.
  - apply (service_handle_is_cftyperef eq IOAVService). reflexivity.
Defined.

(** ** What an HDR query can report *)

(** The absent symbol is told apart from every returned value. *)
Lemma absent_is_distinct {display : Type} (f : display -> bool) (d : display) :
  call None d <> call (Some f) d.
Proof. simpl. discriminate. Qed.

(** C9: an HDR query reports through a bare [bool]: its return type is no
    status code and it has no out-parameter, so its only channels are the
    presence of the weak symbol and the boolean.  When the symbol is
    present, a call that fails inside and reports [false] shows the caller
    exactly what a call that genuinely answers [false] shows; only the
    absence of the symbol is seen as something else. *)
Theorem hdr_query_bare_boolean
  (p : prototype) (display : Type)
  (report : outcome -> bool) (failing genuine : display -> outcome)
  (d : display) (code : nat) :
  In p (members HDRQuery header) ->
  failing d = Failure code ->
  report (Failure code) = false ->
  genuine d = Answer false ->
  report (Answer false) = false ->
  f_ret p = Tbool
  /\ is_status_type (f_ret p) = false
  /\ out_channels 0 (param_types p) = []
  /\ channels p = [Presence; Result Tbool]
  /\ call (through report failing) d = call (through report genuine) d
  /\ call None d <> call (through report failing) d.
Proof.
  intros H Hf Hrf Hg Hrg.
  assert (S : f_ret p = Tbool /\ is_status_type (f_ret p) = false
              /\ out_channels 0 (param_types p) = []
              /\ channels p = [Presence; Result Tbool]).
  { each_function H; repeat split. }
  destruct S as (S1 & S2 & S3 & S4).
  repeat (split; trivial).
  - unfold through, call. now rewrite Hf, Hg, Hrf, Hrg.
  - apply absent_is_distinct.
Qed.

Lemma hdr_query_bare_boolean_witness :
  let report := fun o => match o with Answer b => b | Failure _ => false end in
  let failing := fun _ : nat => Failure 5 in
  let genuine := fun _ : nat => Answer false in
  In CGSIsHDREnabled (members HDRQuery header)
  /\ failing 1 = Failure 5
  /\ report (Failure 5) = false
  /\ genuine 1 = Answer false
  /\ report (Answer false) = false
  /\ f_ret CGSIsHDREnabled = Tbool
  /\ is_status_type (f_ret CGSIsHDREnabled) = false
  /\ out_channels 0 (param_types CGSIsHDREnabled) = []
  /\ channels CGSIsHDREnabled = [Presence; Result Tbool]
  /\ call (through report failing) 1 = call (through report genuine) 1
  /\ call None 1 <> call (through report failing) 1.
Proof.
  intros report failing genuine.
  split; [in_header | ].
  do 4 (split; [reflexivity | ]).
  apply (hdr_query_bare_boolean CGSIsHDREnabled nat report failing genuine 1 5);
    first [in_header | reflexivity].
Defined.

Lemma lookup_complete_witness :
  In DisplayServicesSetLinearBrightness (declared_functions header)
  /\ lookup (f_name DisplayServicesSetLinearBrightness) header
     = Some DisplayServicesSetLinearBrightness.
Proof.
  split.
  - in_header.
  - apply (lookup_complete DisplayServicesSetLinearBrightness). in_header.
Defined.

(** ** From a display to an I2C transfer *)

(** X2: the handle either creation function returns is accepted as the
    first argument of either I2C transfer function, under any rule that
    accepts a value of the expected type itself; and the I2C transfer
    functions are the only declared functions that take a handle. *)
Theorem handle_flows_into_i2c
  (accepted : ctype -> ctype -> Prop) (c t : prototype) :
  (forall u, accepted u u) ->
  In c (members ServiceCreator header) ->
  In t (members I2CTransfer header) ->
  (exists pt, nth_error (param_types t) 0 = Some pt
              /\ accepts accepted header pt (f_ret c))
  /\ (forall p, In p (declared_functions header) ->
                takes header IOAVService p = in_group I2CTransfer p).
Proof.
  intros Hrefl Hc Ht. split.
  - each_function Hc; each_function Ht;
      (eexists; split; [reflexivity | apply Hrefl]).
  - intros p Hp. each_function Hp; reflexivity.
Qed.

Lemma handle_flows_into_i2c_witness :
  (forall u : ctype, u = u)
  /\ In IOAVServiceCreateWithService (members ServiceCreator header)
  /\ In IOAVServiceReadI2C (members I2CTransfer header)
  /\ (exists pt, nth_error (param_types IOAVServiceReadI2C) 0 = Some pt
                 /\ accepts eq header pt (f_ret IOAVServiceCreateWithService))
  /\ (forall p, In p (declared_functions header) ->
                takes header IOAVService p = in_group I2CTransfer p).
Proof.
  split; [reflexivity | ].
  split; [in_header | ].
  split; [in_header | ].
  apply (handle_flows_into_i2c eq IOAVServiceCreateWithService
           IOAVServiceReadI2C);
    first [in_header | reflexivity].
Defined.


(** ** Display identifiers *)

(** X4: a declared function that takes a display identifier takes exactly
    one, as its first parameter; the functions that take none are exactly
    the service-handle creators and the I2C transfer functions, which work
    on a handle. *)
Theorem display_id_comes_first (p : prototype) :
  In p (declared_functions header) ->
  takes header CGDirectDisplayID p
    = negb (in_group ServiceCreator p || in_group I2CTransfer p)
  /\ (takes header CGDirectDisplayID p = true ->
      nth_error (param_types p) 0 = Some CGDirectDisplayID
      /\ occurrences CGDirectDisplayID p = 1)
  /\ (takes header CGDirectDisplayID p = false ->
      occurrences CGDirectDisplayID p = 0).
Proof.
  intro H.
  each_function H; cbn; repeat split; trivial; discriminate.
Qed.

Lemma display_id_comes_first_witness :
  In CGSServiceForDisplayNumber (declared_functions header)
  /\ takes header CGDirectDisplayID CGSServiceForDisplayNumber
     = negb (in_group ServiceCreator CGSServiceForDisplayNumber
             || in_group I2CTransfer CGSServiceForDisplayNumber)
  /\ (takes header CGDirectDisplayID CGSServiceForDisplayNumber = true ->
      nth_error (param_types CGSServiceForDisplayNumber) 0
        = Some CGDirectDisplayID
      /\ occurrences CGDirectDisplayID CGSServiceForDisplayNumber = 1)
  /\ (takes header CGDirectDisplayID CGSServiceForDisplayNumber = false ->
      occurrences CGDirectDisplayID CGSServiceForDisplayNumber = 0).
Proof.
  split.
  - in_header.
  - apply (display_id_comes_first CGSServiceForDisplayNumber). in_header.
Defined.

(** ** Brightness getters and setters *)

(** X5: the brightness functions come in pairs.  Swapping Get and Set in
    the name of one gives the name of another declared brightness
    function, of the same representation and the same return type, and
    swapping again gives the first name back; what the getter of a pair
    writes behind its out-parameter has the type of the value the setter
    takes. *)
Theorem brightness_functions_pair_up (p : prototype) :
  In p (members Brightness header) ->
  exists q,
    lookup (counterpart_name p) header = Some q
    /\ In q (members Brightness header)
    /\ is_getter q = negb (is_getter p)
    /\ is_linear q = is_linear p
    /\ f_ret q = f_ret p
    /\ counterpart_name q = f_name p
    /\ exists v,
         (if is_getter p then out_params p else out_params q)
           = [OutParam 1 v]
         /\ nth_error (param_types (if is_getter p then q else p)) 1
            = Some v.
Proof.
  intro H.
  each_function H;
    (eexists; split; [reflexivity | ]);
    (split; [in_header | ]);
    do 4 (split; [reflexivity | ]);
    (eexists; split; reflexivity).
Qed.

Lemma brightness_functions_pair_up_witness :
  In DisplayServicesSetLinearBrightness (members Brightness header)
  /\ exists q,
       lookup (counterpart_name DisplayServicesSetLinearBrightness) header
         = Some q
       /\ In q (members Brightness header)
       /\ is_getter q = negb (is_getter DisplayServicesSetLinearBrightness)
       /\ is_linear q = is_linear DisplayServicesSetLinearBrightness
       /\ f_ret q = f_ret DisplayServicesSetLinearBrightness
       /\ counterpart_name q = f_name DisplayServicesSetLinearBrightness
       /\ exists v,
            (if is_getter DisplayServicesSetLinearBrightness
             then out_params DisplayServicesSetLinearBrightness
             else out_params q) = [OutParam 1 v]
            /\ nth_error
                 (param_types (if is_getter DisplayServicesSetLinearBrightness
                               then q
                               else DisplayServicesSetLinearBrightness)) 1
               = Some v.
Proof.
  split.
  - in_header.
  - apply (brightness_functions_pair_up DisplayServicesSetLinearBrightness).
    in_header.
Defined.

(** ** Out-parameters *)



(** ** The alias under pointers *)

Lemma subst_clears (n : string) (u t : ctype) :
  mentions n u = false -> mentions n (subst n u t) = false.
Proof.
  intro Hu.
  induction t as [ | | | | | m | c t IH]; simpl; trivial.
  destruct (String.eqb m n) eqn:E; simpl; [exact Hu | exact E].
Qed.

(** X7: the alias is transparent at any depth: whatever type is written
    with [IOAVService], under however many pointers, its expansion has no
    [IOAVService] left, expanding it again changes nothing, and a pointer
    to a type expands to the pointer to its expansion. *)
Theorem alias_is_transparent (t : ctype) (c : bool) :
  mentions "IOAVService" (resolve header t) = false
  /\ resolve header (resolve header t) = resolve header t
  /\ resolve header (Tptr c t) = Tptr c (resolve header t)
  /\ (mentions "IOAVService" t = true -> mentions "CFTypeRef" (resolve header t) = true).
Proof.
  assert (M : mentions "IOAVService" (resolve header t) = false).
  { unfold resolve. simpl. now apply subst_clears. }
  split; [exact M | ].
  split; [now apply resolve_other | ].
  split; [unfold resolve; apply expand_ptr | ].
  unfold resolve. simpl.
  induction t as [ | | | | | m | d t IH]; simpl; try discriminate.
  - intro E. now rewrite E.
  - intro E. apply IH; [ | exact E].
    unfold resolve. simpl. now apply subst_clears.
Qed.

Lemma alias_is_transparent_witness :
  let t := Tptr false (Tptr false IOAVService) in
  mentions "IOAVService" t = true
  /\ mentions "IOAVService" (resolve header t) = false
  /\ resolve header (resolve header t) = resolve header t
  /\ resolve header (Tptr true t) = Tptr true (resolve header t)
  /\ (mentions "IOAVService" t = true ->
      mentions "CFTypeRef" (resolve header t) = true).
Proof.
  intro t. split; [reflexivity | ].
  apply (alias_is_transparent t true).
Defined.

End DDCSupport.
